(** * Rendering of the CAPT workflow and hardware-provision templates

    A shallow embedding of [internal/templates/templates.go]: the two
    template constants, the two [Render] methods, and the fragment of Go's
    [text/template] engine they run on. *)

From Stdlib Require Import String Ascii List Bool Arith Lia.
From stdpp Require Import gmap strings.
Import ListNotations.

(** ** Characters and strings *)

(** The double quote and the line feed, which cannot be written inside a
    string literal. *)
Definition q : string := String "034"%char EmptyString.
Definition nl : string := String "010"%char EmptyString.

(** A Go raw string literal that opens with a line break and closes right
    after one: [`\nl1\nl2\n...ln\n`]. *)
Definition rawString (lines : list string) : string :=
  nl +:+ String.concat "" (map (fun l => l +:+ nl) lines).

(** ** The fragment of [text/template] used by the package *)

Module template.

(** Parse tree: literal text, and the action [{{.Ident}}] (a pipeline of
    one command whose only operand is a field of the data). *)
Inductive Node : Type :=
| TextNode (text : string)
| FieldNode (ident : string).

Inductive ParseError : Type :=
| UnclosedAction
| UnexpectedInAction (c : ascii)
| MissingFieldName.

Inductive ExecError : Type :=
| CantEvaluateField (ident : string)
| NilPointerEvaluating (ident : string).

Inductive Error : Type :=
| ParseErr (e : ParseError)
| ExecErr (e : ExecError).

(** [isSpace] and [isAlphaNumeric] of the lexer, on ASCII. *)
Definition isSpace (c : ascii) : bool :=
  (c =? " ")%char || (c =? "009")%char || (c =? "013")%char || (c =? "010")%char.

Definition isAlphaNumeric (c : ascii) : bool :=
  let n := nat_of_ascii c in
  (c =? "_")%char
  || ((65 <=? n) && (n <=? 90))
  || ((97 <=? n) && (n <=? 122))
  || ((48 <=? n) && (n <=? 57)).

(** Text in front of the nodes that follow it merges into one text node. *)
Definition consText (c : ascii) (r : ParseError + list Node)
  : ParseError + list Node :=
  match r with
  | inl e => inl e
  | inr (TextNode t :: ns) => inr (TextNode (String c t) :: ns)
  | inr ns => inr (TextNode (String c EmptyString) :: ns)
  end.

Definition consNode (n : Node) (r : ParseError + list Node)
  : ParseError + list Node :=
  match r with
  | inl e => inl e
  | inr ns => inr (n :: ns)
  end.

(** The lexer and parser in one pass over the text.  [lexText] scans
    literal text up to the left delimiter; [lexAction] skips the space
    after it and expects the dot of a field; [lexField] reads the
    identifier; [lexClose] skips space and expects the right delimiter.
    Everything else the template language allows inside an action (the
    bare dot, field chains, pipelines, variables, control structures, trim
    markers, comments) is outside the fragment and is reported as a parse
    error. *)
Fixpoint lexText (s : string) : ParseError + list Node :=
  match s with
  | EmptyString => inr []
  | String c rest =>
      match rest with
      | String c' rest' =>
          if (c =? "{")%char && (c' =? "{")%char then lexAction rest'
          else consText c (lexText rest)
      | EmptyString => consText c (lexText rest)
      end
  end
with lexAction (s : string) : ParseError + list Node :=
  match s with
  | EmptyString => inl UnclosedAction
  | String c rest =>
      if isSpace c then lexAction rest
      else if (c =? ".")%char then lexField EmptyString rest
      else inl (UnexpectedInAction c)
  end
with lexField (ident : string) (s : string) : ParseError + list Node :=
  match s with
  | EmptyString => inl UnclosedAction
  | String c rest =>
      if isAlphaNumeric c then lexField (ident +:+ String c EmptyString) rest
      else if String.eqb ident EmptyString then inl MissingFieldName
      else if isSpace c then lexClose ident rest
      else
        match rest with
        | String c' rest' =>
            if (c =? "}")%char && (c' =? "}")%char
            then consNode (FieldNode ident) (lexText rest')
            else inl (UnexpectedInAction c)
        | EmptyString => inl UnclosedAction
        end
  end
with lexClose (ident : string) (s : string) : ParseError + list Node :=
  match s with
  | EmptyString => inl UnclosedAction
  | String c rest =>
      if isSpace c then lexClose ident rest
      else
        match rest with
        | String c' rest' =>
            if (c =? "}")%char && (c' =? "}")%char
            then consNode (FieldNode ident) (lexText rest')
            else inl (UnexpectedInAction c)
        | EmptyString => inl UnclosedAction
        end
  end.

(** [template.New(name).Parse(text)] *)
Definition Parse (text : string) : ParseError + list Node := lexText text.

(** Values a field can hold, and how [Execute] prints them (as
    [fmt.Fprint] does: a string as it is, with no escaping; a boolean as
    [true] or [false]). *)
Inductive Value : Type :=
| VString (s : string)
| VBool (b : bool).

Definition printValue (v : Value) : string :=
  match v with
  | VString s => s
  | VBool true => "true"
  | VBool false => "false"
  end.

(** The data a template is executed on: a struct whose exported fields are
    found by name. *)
Class Struct (T : Type) := fieldByName : T -> string -> option Value.

(** [Execute] walks the nodes and writes to the buffer as it goes; at a
    field the data does not have it stops with an error, leaving what was
    written so far in the buffer. *)
Fixpoint walk {T} `{Struct T} (data : T) (ns : list Node) (buf : string)
  : string * option ExecError :=
  match ns with
  | [] => (buf, None)
  | TextNode t :: ns' => walk data ns' (buf +:+ t)
  | FieldNode f :: ns' =>
      match fieldByName data f with
      | Some v => walk data ns' (buf +:+ printValue v)
      | None => (buf, Some (CantEvaluateField f))
      end
  end.

Definition Execute {T} `{Struct T} (tpl : list Node) (buf : string) (data : T)
  : string * option ExecError :=
  walk data tpl buf.

End template.

(** ** Errors of the package *)

(** The two sentinel errors, and [errors.Wrap(err, msg)] around a fault of
    the template engine. *)
Inductive error : Type :=
| ErrMissingName
| ErrMissingImageURL
| Wrap (cause : template.Error) (msg : string).

(** ** The workflow template *)

Record WorkflowTemplate : Type := {
  Name : string;
  MetadataURL : string;
  ImageURL : string;
  DestDisk : string;
  DestPartition : string;
  DeviceTemplateName : string
}.

#[export] Instance WorkflowTemplate_Struct : template.Struct WorkflowTemplate :=
  fun wt f =>
    if String.eqb f "Name" then Some (template.VString (Name wt))
    else if String.eqb f "MetadataURL" then Some (template.VString (MetadataURL wt))
    else if String.eqb f "ImageURL" then Some (template.VString (ImageURL wt))
    else if String.eqb f "DestDisk" then Some (template.VString (DestDisk wt))
    else if String.eqb f "DestPartition" then Some (template.VString (DestPartition wt))
    else if String.eqb f "DeviceTemplateName"
         then Some (template.VString (DeviceTemplateName wt))
    else None.

(** The constant [workflowTemplate], line by line. *)
Definition workflowTemplate_lines : list string :=
  [ "version: " +:+ q +:+ "0.1" +:+ q
  ; "name: {{.Name}}"
  ; "global_timeout: 6000"
  ; "tasks:"
  ; "  - name: " +:+ q +:+ "{{.Name}}" +:+ q
  ; "    worker: " +:+ q +:+ "{{.DeviceTemplateName}}" +:+ q
  ; "    volumes:"
  ; "      - /dev:/dev"
  ; "      - /dev/console:/dev/console"
  ; "      - /lib/firmware:/lib/firmware:ro"
  ; "    actions:"
  ; "      - name: " +:+ q +:+ "stream-image" +:+ q
  ; "        image: quay.io/tinkerbell-actions/image2disk:v1.0.0"
  ; "        timeout: 600"
  ; "        environment:"
  ; "          IMG_URL: {{.ImageURL}}"
  ; "          DEST_DISK: {{.DestDisk}}"
  ; "          COMPRESSED: true"
  ; "      - name: " +:+ q +:+ "create-user" +:+ q
  ; "        image: quay.io/tinkerbell-actions/cexec:v1.0.0"
  ; "        timeout: 90"
  ; "        environment:"
  ; "          BLOCK_DEVICE: {{.DestPartition}}"
  ; "          FS_TYPE: ext4"
  ; "          CHROOT: y"
  ; "          DEFAULT_INTERPRETER: " +:+ q +:+ "/bin/sh -c" +:+ q
  ; "          CMD_LINE: " +:+ q +:+ "useradd -p $(openssl passwd -1 tink) -s /bin/bash -d /home/tink/ -m -G sudo tink" +:+ q
  ; "      - name: " +:+ q +:+ "create-init-script" +:+ q
  ; "        image: quay.io/tinkerbell-actions/writefile:v1.0.0"
  ; "        timeout: 90"
  ; "        environment:"
  ; "            DEST_DISK: {{.DestPartition}}"
  ; "            FS_TYPE: ext4"
  ; "            DEST_PATH: /root/cluster-setup.sh"
  ; "            UID: 0"
  ; "            GID: 0"
  ; "            MODE: 0700"
  ; "            DIRMODE: 0700"
  ; "            CONTENTS: |"
  ; "              #!/bin/bash"
  ; "              tdnf install -y apparmor-parser apparmor-utils"
  ; "              iptables -I INPUT -p tcp --dport 6443 -j ACCEPT"
  ; "              rm /root/cluster-setup.sh"
  ; "      - name: " +:+ q +:+ "create-init-script-service" +:+ q
  ; "        image: quay.io/tinkerbell-actions/writefile:v1.0.0"
  ; "        timeout: 90"
  ; "        environment:"
  ; "            DEST_DISK: {{.DestPartition}}"
  ; "            FS_TYPE: ext4"
  ; "            DEST_PATH: /usr/local/lib/systemd/system/cluster-setup.service"
  ; "            UID: 0"
  ; "            GID: 0"
  ; "            MODE: 0600"
  ; "            DIRMODE: 0600"
  ; "            CONTENTS: |"
  ; "              [Unit]"
  ; "              Before=systemd-user-sessions.service"
  ; "              Wants=network-online.target"
  ; "              After=network-online.target"
  ; "              ConditionPathExists=/root/cluster-setup.sh"
  ; "              [Service]"
  ; "              Type=oneshot"
  ; "              ExecStart=/root/cluster-setup.sh"
  ; "              RemainAfterExit=yes"
  ; "              [Install]"
  ; "              WantedBy=multi-user.target"
  ; "      - name: " +:+ q +:+ "enable-init-script" +:+ q
  ; "        image: quay.io/tinkerbell-actions/cexec:v1.0.0"
  ; "        timeout: 90"
  ; "        environment:"
  ; "            BLOCK_DEVICE: {{.DestPartition}}"
  ; "            FS_TYPE: ext4"
  ; "            CHROOT: y"
  ; "            DEFAULT_INTERPRETER: " +:+ q +:+ "/bin/sh -c" +:+ q
  ; "            CMD_LINE: " +:+ q +:+ "systemctl enable cluster-setup.service" +:+ q
  ; "      - name: " +:+ q +:+ "add-tink-cloud-init-config" +:+ q
  ; "        image: quay.io/tinkerbell-actions/writefile:v1.0.0"
  ; "        timeout: 90"
  ; "        environment:"
  ; "          DEST_DISK: {{.DestPartition}}"
  ; "          FS_TYPE: ext4"
  ; "          DEST_PATH: /etc/cloud/cloud.cfg.d/10_tinkerbell.cfg"
  ; "          UID: 0"
  ; "          GID: 0"
  ; "          MODE: 0600"
  ; "          DIRMODE: 0700"
  ; "          CONTENTS: |"
  ; "            datasource:"
  ; "              Ec2:"
  ; "                metadata_urls: [" +:+ q +:+ "{{.MetadataURL}}" +:+ q +:+ "]"
  ; "                strict_id: false"
  ; "            system_info:"
  ; "              default_user:"
  ; "                name: tink"
  ; "                groups: [wheel, adm]"
  ; "                sudo: [" +:+ q +:+ "ALL=(ALL) NOPASSWD:ALL" +:+ q +:+ "]"
  ; "                shell: /bin/bash"
  ; "            manage_etc_hosts: localhost"
  ; "            warnings:"
  ; "              dsid_missing_source: off"
  ; "      - name: " +:+ q +:+ "add-tink-cloud-init-ds-config" +:+ q
  ; "        image: quay.io/tinkerbell-actions/writefile:v1.0.0"
  ; "        timeout: 90"
  ; "        environment:"
  ; "          DEST_DISK: {{.DestPartition}}"
  ; "          FS_TYPE: ext4"
  ; "          DEST_PATH: /etc/cloud/ds-identify.cfg"
  ; "          UID: 0"
  ; "          GID: 0"
  ; "          MODE: 0600"
  ; "          DIRMODE: 0700"
  ; "          CONTENTS: |"
  ; "            datasource: Ec2"
  ; "      - name: " +:+ q +:+ "kexec-image" +:+ q
  ; "        image: quay.io/tinkerbell-actions/kexec:v1.0.0"
  ; "        timeout: 90"
  ; "        pid: host"
  ; "        environment:"
  ; "          BLOCK_DEVICE: {{.DestPartition}}"
  ; "          FS_TYPE: ext4"
  ; "          KERNEL_PATH: /boot/vmlinuz-5.15.86.1-1.cm2"
  ; "          INITRD_PATH: /boot/initrd.img-5.15.86.1-1.cm2"
  ; "          CMD_LINE: " +:+ q +:+ "root={{.DestPartition}} rw" +:+ q
  ].

Definition workflowTemplate : string := rawString workflowTemplate_lines.

(** The assignment [wt.DeviceTemplateName = v]. *)
Definition set_DeviceTemplateName (v : string) (wt : WorkflowTemplate)
  : WorkflowTemplate :=
  {| Name := Name wt;
     MetadataURL := MetadataURL wt;
     ImageURL := ImageURL wt;
     DestDisk := DestDisk wt;
     DestPartition := DestPartition wt;
     DeviceTemplateName := v |}.

(** [func (wt *WorkflowTemplate) Render() (string, error)], on the object
    the receiver points to: the object after the call, and the two
    results. *)
Definition WorkflowTemplate_Render (wt : WorkflowTemplate)
  : WorkflowTemplate * (string * option error) :=
  if String.eqb (Name wt) "" then (wt, ("", Some ErrMissingName))
  else if String.eqb (ImageURL wt) "" then (wt, ("", Some ErrMissingImageURL))
  else
    let wt :=
      if String.eqb (DeviceTemplateName wt) ""
      then set_DeviceTemplateName "{{.device_1}}" wt
      else wt in
    match template.Parse workflowTemplate with
    | inl e => (wt, ("", Some (Wrap (template.ParseErr e) "unable to parse template")))
    | inr tpl =>
        match template.Execute tpl "" wt with
        | (_, Some e) =>
            (wt, ("", Some (Wrap (template.ExecErr e) "unable to execute template")))
        | (buf, None) => (wt, (buf, None))
        end
    end.

(** ** The hardware provision tasks *)

Record HardwareProvisionTasks : Type := { EFIBoot : bool }.

#[export] Instance HardwareProvisionTasks_Struct
  : template.Struct HardwareProvisionTasks :=
  fun t f =>
    if String.eqb f "EFIBoot" then Some (template.VBool (EFIBoot t)) else None.

(** The constant [hardwareProvisionTasks], line by line. *)
Definition hardwareProvisionTasks_lines : list string :=
  [ "- powerAction: " +:+ q +:+ "off" +:+ q
  ; "- oneTimeBootDeviceAction:"
  ; "    device:"
  ; "    - pxe"
  ; "    efiBoot: {{.EFIBoot}}"
  ; "- powerAction: " +:+ q +:+ "on" +:+ q
  ].

Definition hardwareProvisionTasks : string := rawString hardwareProvisionTasks_lines.

(** [func (wt *HardwareProvisionTasks) Render() (string, error)]; the
    receiver is only read. *)
Definition HardwareProvisionTasks_Render (wt : HardwareProvisionTasks)
  : string * option error :=
  match template.Parse hardwareProvisionTasks with
  | inl e => ("", Some (Wrap (template.ParseErr e) "unable to parse template"))
  | inr tpl =>
      match template.Execute tpl "" wt with
      | (_, Some e) => ("", Some (Wrap (template.ExecErr e) "unable to execute template"))
      | (buf, None) => (buf, None)
      end
  end.

(** ** Calls through a pointer *)

(** Both methods have pointer receivers.  A store maps the addresses of the
    live objects to their values; an address that holds no object stands for
    a nil receiver.  On a nil receiver [WorkflowTemplate.Render] panics at
    its first field access ([None] here), while
    [HardwareProvisionTasks.Render] hands the nil pointer to [Execute],
    which fails at the field [EFIBoot]. *)
Definition addr := positive.

Definition call_WorkflowTemplate_Render (p : addr) (h : gmap addr WorkflowTemplate)
  : option (gmap addr WorkflowTemplate * (string * option error)) :=
  match h !! p with
  | None => None
  | Some wt =>
      let '(wt', r) := WorkflowTemplate_Render wt in
      Some (<[p := wt']> h, r)
  end.

Definition call_HardwareProvisionTasks_Render
    (p : addr) (h : gmap addr HardwareProvisionTasks)
  : gmap addr HardwareProvisionTasks * (string * option error) :=
  match h !! p with
  | None =>
      (h, ("", Some (Wrap (template.ExecErr (template.NilPointerEvaluating "EFIBoot"))
                       "unable to execute template")))
  | Some t => (h, HardwareProvisionTasks_Render t)
  end.

(** ** Reading a rendered document *)

(** What a parsed template denotes on given data: every node printed, in
    order. *)
Fixpoint renderNodes {T} `{template.Struct T} (data : T) (ns : list template.Node)
  : string :=
  match ns with
  | [] => ""
  | template.TextNode t :: ns' => t +:+ renderNodes data ns'
  | template.FieldNode f :: ns' =>
      match template.fieldByName data f with
      | Some v => template.printValue v
      | None => ""
      end +:+ renderNodes data ns'
  end.

Fixpoint fieldsOf (ns : list template.Node) : list string :=
  match ns with
  | [] => []
  | template.TextNode _ :: ns' => fieldsOf ns'
  | template.FieldNode f :: ns' => f :: fieldsOf ns'
  end.

(** [sub] occurs in [s]. *)
Definition Contains (sub s : string) : Prop :=
  exists pre post, s = pre +:+ sub +:+ post.

Fixpoint containsb (sub s : string) : bool :=
  String.prefix sub s
  || match s with
     | EmptyString => false
     | String _ s' => containsb sub s'
     end.

(** The lines of a text, split at line feeds. *)
Fixpoint splitLines (s : string) : list string :=
  match s with
  | EmptyString => [EmptyString]
  | String c s' =>
      if (c =? "010")%char then EmptyString :: splitLines s'
      else
        match splitLines s' with
        | l :: ls => String c l :: ls
        | [] => [String c EmptyString]
        end
  end.

(** [stripPrefix p s] is what follows [p] in [s], when [s] starts with [p]. *)
Fixpoint stripPrefix (p s : string) : option string :=
  match p, s with
  | EmptyString, _ => Some s
  | String a p', String b s' => if (a =? b)%char then stripPrefix p' s' else None
  | String _ _, EmptyString => None
  end.

(** The actions of the workflow's task, by name and in document order: the
    entries [- name: ...] of the list under [actions:], six columns in. *)
Definition actionNames (out : string) : list string :=
  omap (stripPrefix "      - name: ") (splitLines out).

(** The steps of a hardware job, in document order: the entries of the
    top-level sequence, which start in the first column. *)
Definition steps (out : string) : list string :=
  omap (stripPrefix "- ") (splitLines out).

(** The parsed templates. *)
Definition workflowNodes : list template.Node :=
  Eval vm_compute in
    match template.Parse workflowTemplate with inr ns => ns | inl _ => [] end.

Definition hardwareNodes : list template.Node :=
  Eval vm_compute in
    match template.Parse hardwareProvisionTasks with inr ns => ns | inl _ => [] end.

(** The workflow document on given field values, line by line: the lines of
    the template with every field reference replaced by the value. *)
Definition workflowLines (wt : WorkflowTemplate) : list string :=
  [ "version: " +:+ q +:+ "0.1" +:+ q
  ; "name: " +:+ Name wt
  ; "global_timeout: 6000"
  ; "tasks:"
  ; "  - name: " +:+ q +:+ Name wt +:+ q
  ; "    worker: " +:+ q +:+ DeviceTemplateName wt +:+ q
  ; "    volumes:"
  ; "      - /dev:/dev"
  ; "      - /dev/console:/dev/console"
  ; "      - /lib/firmware:/lib/firmware:ro"
  ; "    actions:"
  ; "      - name: " +:+ q +:+ "stream-image" +:+ q
  ; "        image: quay.io/tinkerbell-actions/image2disk:v1.0.0"
  ; "        timeout: 600"
  ; "        environment:"
  ; "          IMG_URL: " +:+ ImageURL wt
  ; "          DEST_DISK: " +:+ DestDisk wt
  ; "          COMPRESSED: true"
  ; "      - name: " +:+ q +:+ "create-user" +:+ q
  ; "        image: quay.io/tinkerbell-actions/cexec:v1.0.0"
  ; "        timeout: 90"
  ; "        environment:"
  ; "          BLOCK_DEVICE: " +:+ DestPartition wt
  ; "          FS_TYPE: ext4"
  ; "          CHROOT: y"
  ; "          DEFAULT_INTERPRETER: " +:+ q +:+ "/bin/sh -c" +:+ q
  ; "          CMD_LINE: " +:+ q +:+ "useradd -p $(openssl passwd -1 tink) -s /bin/bash -d /home/tink/ -m -G sudo tink" +:+ q
  ; "      - name: " +:+ q +:+ "create-init-script" +:+ q
  ; "        image: quay.io/tinkerbell-actions/writefile:v1.0.0"
  ; "        timeout: 90"
  ; "        environment:"
  ; "            DEST_DISK: " +:+ DestPartition wt
  ; "            FS_TYPE: ext4"
  ; "            DEST_PATH: /root/cluster-setup.sh"
  ; "            UID: 0"
  ; "            GID: 0"
  ; "            MODE: 0700"
  ; "            DIRMODE: 0700"
  ; "            CONTENTS: |"
  ; "              #!/bin/bash"
  ; "              tdnf install -y apparmor-parser apparmor-utils"
  ; "              iptables -I INPUT -p tcp --dport 6443 -j ACCEPT"
  ; "              rm /root/cluster-setup.sh"
  ; "      - name: " +:+ q +:+ "create-init-script-service" +:+ q
  ; "        image: quay.io/tinkerbell-actions/writefile:v1.0.0"
  ; "        timeout: 90"
  ; "        environment:"
  ; "            DEST_DISK: " +:+ DestPartition wt
  ; "            FS_TYPE: ext4"
  ; "            DEST_PATH: /usr/local/lib/systemd/system/cluster-setup.service"
  ; "            UID: 0"
  ; "            GID: 0"
  ; "            MODE: 0600"
  ; "            DIRMODE: 0600"
  ; "            CONTENTS: |"
  ; "              [Unit]"
  ; "              Before=systemd-user-sessions.service"
  ; "              Wants=network-online.target"
  ; "              After=network-online.target"
  ; "              ConditionPathExists=/root/cluster-setup.sh"
  ; "              [Service]"
  ; "              Type=oneshot"
  ; "              ExecStart=/root/cluster-setup.sh"
  ; "              RemainAfterExit=yes"
  ; "              [Install]"
  ; "              WantedBy=multi-user.target"
  ; "      - name: " +:+ q +:+ "enable-init-script" +:+ q
  ; "        image: quay.io/tinkerbell-actions/cexec:v1.0.0"
  ; "        timeout: 90"
  ; "        environment:"
  ; "            BLOCK_DEVICE: " +:+ DestPartition wt
  ; "            FS_TYPE: ext4"
  ; "            CHROOT: y"
  ; "            DEFAULT_INTERPRETER: " +:+ q +:+ "/bin/sh -c" +:+ q
  ; "            CMD_LINE: " +:+ q +:+ "systemctl enable cluster-setup.service" +:+ q
  ; "      - name: " +:+ q +:+ "add-tink-cloud-init-config" +:+ q
  ; "        image: quay.io/tinkerbell-actions/writefile:v1.0.0"
  ; "        timeout: 90"
  ; "        environment:"
  ; "          DEST_DISK: " +:+ DestPartition wt
  ; "          FS_TYPE: ext4"
  ; "          DEST_PATH: /etc/cloud/cloud.cfg.d/10_tinkerbell.cfg"
  ; "          UID: 0"
  ; "          GID: 0"
  ; "          MODE: 0600"
  ; "          DIRMODE: 0700"
  ; "          CONTENTS: |"
  ; "            datasource:"
  ; "              Ec2:"
  ; "                metadata_urls: [" +:+ q +:+ MetadataURL wt +:+ q +:+ "]"
  ; "                strict_id: false"
  ; "            system_info:"
  ; "              default_user:"
  ; "                name: tink"
  ; "                groups: [wheel, adm]"
  ; "                sudo: [" +:+ q +:+ "ALL=(ALL) NOPASSWD:ALL" +:+ q +:+ "]"
  ; "                shell: /bin/bash"
  ; "            manage_etc_hosts: localhost"
  ; "            warnings:"
  ; "              dsid_missing_source: off"
  ; "      - name: " +:+ q +:+ "add-tink-cloud-init-ds-config" +:+ q
  ; "        image: quay.io/tinkerbell-actions/writefile:v1.0.0"
  ; "        timeout: 90"
  ; "        environment:"
  ; "          DEST_DISK: " +:+ DestPartition wt
  ; "          FS_TYPE: ext4"
  ; "          DEST_PATH: /etc/cloud/ds-identify.cfg"
  ; "          UID: 0"
  ; "          GID: 0"
  ; "          MODE: 0600"
  ; "          DIRMODE: 0700"
  ; "          CONTENTS: |"
  ; "            datasource: Ec2"
  ; "      - name: " +:+ q +:+ "kexec-image" +:+ q
  ; "        image: quay.io/tinkerbell-actions/kexec:v1.0.0"
  ; "        timeout: 90"
  ; "        pid: host"
  ; "        environment:"
  ; "          BLOCK_DEVICE: " +:+ DestPartition wt
  ; "          FS_TYPE: ext4"
  ; "          KERNEL_PATH: /boot/vmlinuz-5.15.86.1-1.cm2"
  ; "          INITRD_PATH: /boot/initrd.img-5.15.86.1-1.cm2"
  ; "          CMD_LINE: " +:+ q +:+ "root=" +:+ DestPartition wt +:+ " rw" +:+ q
  ].

(** The default-fill of [Render], as a function of the object. *)
Definition defaulted (wt : WorkflowTemplate) : WorkflowTemplate :=
  if String.eqb (DeviceTemplateName wt) ""
  then set_DeviceTemplateName "{{.device_1}}" wt
  else wt.

(** The workflow document from its first byte up to the line of the
    [worker] field. *)
Definition workflowHead (name : string) : string :=
  nl +:+ "version: " +:+ q +:+ "0.1" +:+ q +:+ nl
  +:+ "name: " +:+ name +:+ nl
  +:+ "global_timeout: 6000" +:+ nl
  +:+ "tasks:" +:+ nl
  +:+ "  - name: " +:+ q +:+ name +:+ q +:+ nl.

(** The example object of the specification. *)
Definition wt_m1 : WorkflowTemplate :=
  {| Name := "m1";
     MetadataURL := "http://meta";
     ImageURL := "http://x/img";
     DestDisk := "/dev/sda";
     DestPartition := "/dev/sda1";
     DeviceTemplateName := "worker-1" |}.

(** ** Well-formed YAML *)

(** Whether a rendered text is syntactically valid YAML is judged by a
    recogniser of the block-style subset of YAML 1.2 that the two documents
    are written in.  Within printable ASCII, line by line, it admits:
    - block mappings whose keys are identifiers, [key:] or [key: value];
    - block sequences, [- value] or [- key: value] (a compact mapping);
    - as values: nothing (a null, or a nested block on the lines below),
      one-line plain scalars, one-line double-quoted scalars without
      escapes, and literal block scalars opened by a bare [|];
    - nesting by indentation, a sequence under a key at the key's column
      included.
    Flow collections, anchors, tags, comments, multi-line scalars, document
    markers and tabs are outside the subset, so the recogniser is strict: a
    text it accepts has the syntax of a YAML document, while some texts it
    rejects a parser would accept.  Keys are not compared: whether a
    mapping repeats a key is not a matter of syntax. *)
Module yaml.

Definition printable (c : ascii) : bool :=
  let n := nat_of_ascii c in (32 <=? n) && (n <=? 126).

Fixpoint allPrintable (s : string) : bool :=
  match s with
  | EmptyString => true
  | String c s' => printable c && allPrintable s'
  end.

Fixpoint allSpaces (s : string) : bool :=
  match s with
  | EmptyString => true
  | String c s' => (c =? " ")%char && allSpaces s'
  end.

Fixpoint mem (c : ascii) (s : string) : bool :=
  match s with
  | EmptyString => false
  | String d s' => (c =? d)%char || mem c s'
  end.

(** The indicator characters: none of them starts a plain scalar here. *)
Definition isIndicator (c : ascii) : bool :=
  mem c ("-?:,[]{}#&*!|>'%@`" +:+ q).

(** Inside a plain scalar a colon is not followed by a space or the end of
    the line, and a space is not followed by [#]. *)
Fixpoint plainTail (s : string) : bool :=
  match s with
  | EmptyString => true
  | String c s' =>
      match s' with
      | EmptyString => negb (c =? ":")%char
      | String c' _ =>
          negb ((c =? ":")%char && (c' =? " ")%char)
          && negb ((c =? " ")%char && (c' =? "#")%char)
          && plainTail s'
      end
  end.

Definition isPlain (s : string) : bool :=
  match s with
  | EmptyString => false
  | String c _ =>
      negb (c =? " ")%char && negb (isIndicator c) && plainTail s && allPrintable s
  end.

(** What may stand between double quotes: no double quote, no backslash. *)
Definition quotableChar (c : ascii) : bool :=
  printable c && negb (c =? "034")%char && negb (c =? "\")%char.

Fixpoint quotable (s : string) : bool :=
  match s with
  | EmptyString => true
  | String c s' => quotableChar c && quotable s'
  end.

(** After an opening double quote: the body, the closing quote, and then
    nothing but spaces. *)
Fixpoint quotedTail (s : string) : bool :=
  match s with
  | EmptyString => false
  | String c s' =>
      if (c =? "034")%char then allSpaces s'
      else quotableChar c && quotedTail s'
  end.

Inductive Value : Type := Null | Literal | Scalar.

Definition valueKind (v : string) : option Value :=
  if allSpaces v then Some Null
  else
    match v with
    | EmptyString => Some Null
    | String c v' =>
        if (c =? "|")%char then (if allSpaces v' then Some Literal else None)
        else if (c =? "034")%char then (if quotedTail v' then Some Scalar else None)
        else if isPlain v then Some Scalar
        else None
    end.

Definition isScalar (v : string) : bool :=
  match v with
  | EmptyString => false
  | String c v' => if (c =? "034")%char then quotedTail v' else isPlain v
  end.

Definition isKeyChar (c : ascii) : bool :=
  let n := nat_of_ascii c in
  (c =? "_")%char
  || ((65 <=? n) && (n <=? 90))
  || ((97 <=? n) && (n <=? 122))
  || ((48 <=? n) && (n <=? 57)).

(** [keyValue 0 s] is the value text of [s] when [s] reads [key:] or
    [key: value], the key an identifier of at most 1024 characters. *)
Fixpoint keyValue (len : nat) (s : string) : option string :=
  match s with
  | EmptyString => None
  | String c s' =>
      if isKeyChar c then keyValue (S len) s'
      else if (c =? ":")%char && (1 <=? len) && (len <=? 1024) then
        match s' with
        | EmptyString => Some EmptyString
        | String c' v => if (c' =? " ")%char then Some v else None
        end
      else None
  end.

(** What a line says, once its indentation is taken off. *)
Inductive Item : Type :=
| Key (v : Value)
| EntryKey (v : Value)
| EntryScalar.

Definition item (c : string) : option Item :=
  match c with
  | String c1 (String c2 rest) =>
      if (c1 =? "-")%char && (c2 =? " ")%char then
        match keyValue 0 rest with
        | Some v => option_map EntryKey (valueKind v)
        | None => if isScalar rest then Some EntryScalar else None
        end
      else option_map Key (keyValue 0 c ≫= valueKind)
  | _ => option_map Key (keyValue 0 c ≫= valueKind)
  end.

Inductive Shape : Type :=
| Blank (n : nat)
| Text (n : nat) (it : option Item).

Fixpoint leading (s : string) : nat * string :=
  match s with
  | EmptyString => (0, EmptyString)
  | String c s' =>
      if (c =? " ")%char then let '(n, r) := leading s' in (S n, r)
      else (0, s)
  end.

(** The shape of a line; [None] for a line with a character outside
    printable ASCII. *)
Definition shape (l : string) : option Shape :=
  if allPrintable l then
    let '(n, c) := leading l in
    match c with
    | EmptyString => Some (Blank n)
    | String _ _ => Some (Text n (item c))
    end
  else None.

Inductive Kind : Type := Map | Seq.

(** The reader is at the start of the document, between the lines of block
    collections ([pend]: the last key has no value yet), or inside a literal
    block scalar under a key at column [n], before or after its first line
    (which fixes the column [m] of the text). *)
Inductive Mode : Type :=
| Start
| Block (pend : bool)
| LitHead (n : nat)
| LitBody (n m : nat).

Record State : Type := {
  frames : list (nat * Kind);
  mode : Mode
}.

Fixpoint pop (n : nat) (fs : list (nat * Kind)) : list (nat * Kind) :=
  match fs with
  | (m, k) :: fs' => if n <? m then pop n fs' else fs
  | [] => []
  end.

(** Where a key ([Map]) or an entry ([Seq]) at column [n] goes among the
    open collections, innermost first. *)
Definition place (n : nat) (k : Kind) (pend : bool) (fs : list (nat * Kind))
  : option (list (nat * Kind)) :=
  match fs with
  | [] => None
  | (m, _) :: _ =>
      if m <? n then (if pend then Some ((n, k) :: fs) else None)
      else
        match pop n fs with
        | (m1, k1) :: below =>
            if m1 =? n then
              match k, k1 with
              | Map, Map | Seq, Seq => Some ((m1, k1) :: below)
              | Map, Seq =>
                  match below with
                  | (m2, Map) :: _ => if m2 =? n then Some below else None
                  | _ => None
                  end
              | Seq, Map =>
                  if pend && (m =? n) then Some ((n, Seq) :: (m1, k1) :: below)
                  else None
              end
            else None
        | [] => None
        end
  end.

Definition after (v : Value) (n : nat) : Mode :=
  match v with
  | Null => Block true
  | Scalar => Block false
  | Literal => LitHead n
  end.

Definition kindOf (it : Item) : Kind :=
  match it with
  | Key _ => Map
  | EntryKey _ | EntryScalar => Seq
  end.

(** The state after the line, [fs] holding the collection the line is in. *)
Definition enter (n : nat) (it : Item) (fs : list (nat * Kind)) : State :=
  match it with
  | Key v => {| frames := fs; mode := after v n |}
  | EntryKey v => {| frames := (n + 2, Map) :: fs; mode := after v (n + 2) |}
  | EntryScalar => {| frames := fs; mode := Block false |}
  end.

Definition block (n : nat) (it : option Item) (pend : bool) (fs : list (nat * Kind))
  : option State :=
  match it with
  | None => None
  | Some it =>
      match place n (kindOf it) pend fs with
      | Some fs' => Some (enter n it fs')
      | None => None
      end
  end.

Definition step (st : State) (sh : Shape) : option State :=
  match mode st, sh with
  | Start, Blank _ => Some st
  | Start, Text n (Some it) => Some (enter n it [(n, kindOf it)])
  | Start, Text _ None => None
  | Block _, Blank _ => Some st
  | Block pend, Text n it => block n it pend (frames st)
  | LitHead _, Blank k => if k =? 0 then Some st else None
  | LitHead p, Text n it =>
      if p <? n then Some {| frames := frames st; mode := LitBody p n |}
      else block n it false (frames st)
  | LitBody _ _, Blank _ => Some st
  | LitBody p m, Text n it =>
      if m <=? n then Some st
      else if p <? n then None
      else block n it false (frames st)
  end.

Fixpoint check (st : State) (shs : list (option Shape)) : bool :=
  match shs with
  | [] => true
  | None :: _ => false
  | Some sh :: rest =>
      match step st sh with
      | Some st' => check st' rest
      | None => false
      end
  end.

Definition wellFormed (doc : string) : bool :=
  check {| frames := []; mode := Start |} (map shape (splitLines doc)).

(** The character set of YAML (production [c-printable] of YAML 1.2): a
    document holds no control character other than tab, line feed and
    carriage return, and no DEL.  This is a necessary condition, on bytes:
    a text with a forbidden byte is no YAML document, whatever else it
    holds.  Bytes from 128 on belong to multi-byte characters and are not
    judged. *)
Definition forbiddenByte (c : ascii) : bool :=
  let n := nat_of_ascii c in
  ((n <? 32) && negb ((n =? 9) || (n =? 10) || (n =? 13))) || (n =? 127).

Fixpoint charsAllowed (s : string) : bool :=
  match s with
  | EmptyString => true
  | String c s' => negb (forbiddenByte c) && charsAllowed s'
  end.

End yaml.

(** The field values fit the places of the workflow template they are
    substituted into.  All of them are printable ASCII.  [Name] and
    [ImageURL] pass [yaml.isPlain]: not empty, the first character neither
    a space nor an indicator, no colon before a space or at the end, no
    space before [#].  [DestDisk] and [DestPartition] are empty or pass
    [yaml.isPlain].  What goes between double quotes ([Name],
    [DestPartition], [DeviceTemplateName]) holds no double quote and no
    backslash. *)
Definition fitsYaml (wt : WorkflowTemplate) : bool :=
  yaml.isPlain (Name wt) && yaml.quotable (Name wt)
  && yaml.isPlain (ImageURL wt)
  && (String.eqb (DestDisk wt) "" || yaml.isPlain (DestDisk wt))
  && (String.eqb (DestPartition wt) "" || yaml.isPlain (DestPartition wt))
  && yaml.quotable (DestPartition wt)
  && yaml.quotable (DeviceTemplateName wt)
  && yaml.allPrintable (MetadataURL wt).

(** Objects with the shortest values of each kind, by whether [DestDisk]
    and [DestPartition] are empty. *)
Definition wt_shape (disk part : bool) : WorkflowTemplate :=
  {| Name := "m";
     MetadataURL := "";
     ImageURL := "i";
     DestDisk := if disk then "d" else "";
     DestPartition := if part then "p" else "";
     DeviceTemplateName := "" |}.

(** A device template name that is the control character 1. *)
Definition wt_control : WorkflowTemplate :=
  set_DeviceTemplateName (String "001"%char EmptyString) wt_m1.

(** A destination disk that reads as a mapping entry of its own. *)
Definition wt_colon : WorkflowTemplate :=
  {| Name := "m1";
     MetadataURL := "http://meta";
     ImageURL := "http://x/img";
     DestDisk := "a: b";
     DestPartition := "/dev/sda1";
     DeviceTemplateName := "worker-1" |}.

(** Further example objects: the one of the specification without a device
    template name, one without a name (and without an image), one without
    an image. *)
Definition wt_blank_device : WorkflowTemplate :=
  set_DeviceTemplateName "" wt_m1.

Definition wt_nameless : WorkflowTemplate :=
  {| Name := ""; MetadataURL := "http://meta"; ImageURL := "";
     DestDisk := "/dev/sda"; DestPartition := "/dev/sda1";
     DeviceTemplateName := "" |}.

Definition wt_imageless : WorkflowTemplate :=
  {| Name := "m1"; MetadataURL := "http://meta"; ImageURL := "";
     DestDisk := "/dev/sda"; DestPartition := "/dev/sda1";
     DeviceTemplateName := "" |}.


(** ** Field values of one line *)





(** * Properties *)

(** ** Strings *)

Lemma string_app_assoc (a b c : string) : (a +:+ b) +:+ c = a +:+ (b +:+ c).
Proof.
  induction a as [|x a IH]; [reflexivity|].
  change (String x ((a +:+ b) +:+ c) = String x (a +:+ (b +:+ c))).
  now rewrite IH.
Qed.

Lemma string_app_nil_r (a : string) : a +:+ "" = a.
Proof.
  induction a as [|x a IH]; [reflexivity|].
  change (String x (a +:+ "") = String x a). now rewrite IH.
Qed.

Lemma prefix_split (p s : string) :
  String.prefix p s = true -> exists post, s = p +:+ post.
Proof.
  revert s. induction p as [|a p IH]; intros s Hp.
  - exists s. reflexivity.
  - destruct s as [|b s]; [discriminate|].
    cbn in Hp. destruct (ascii_dec a b) as [->|]; [|discriminate].
    destruct (IH _ Hp) as [post ->]. exists post. reflexivity.
Qed.

Lemma containsb_sound (sub s : string) : containsb sub s = true -> Contains sub s.
Proof.
  induction s as [|c s IH]; cbn [containsb]; intros H.
  - rewrite orb_false_r in H. apply prefix_split in H as [post ->].
    exists "", post. reflexivity.
  - apply orb_true_iff in H as [H|H].
    + apply prefix_split in H as [post ->]. exists "", post. reflexivity.
    + destruct (IH H) as (pre & post & ->).
      exists (String c pre), post. reflexivity.
Qed.

(** ** The template engine *)

Lemma walk_defined {T} `{template.Struct T} (data : T) (ns : list template.Node) :
  Forall (fun f => is_Some (template.fieldByName data f)) (fieldsOf ns) ->
  forall buf, template.walk data ns buf = (buf +:+ renderNodes data ns, None).
Proof.
  induction ns as [|[t|f] ns IH]; cbn [fieldsOf template.walk renderNodes]; intros Hf buf.
  - now rewrite string_app_nil_r.
  - rewrite (IH Hf). now rewrite string_app_assoc.
  - inversion Hf as [|? ? [v Hv] Hf']; subst. rewrite Hv.
    rewrite (IH Hf'). now rewrite string_app_assoc.
Qed.

Lemma Parse_workflowTemplate : template.Parse workflowTemplate = inr workflowNodes.
Proof. vm_compute. reflexivity. Qed.

Lemma Parse_hardwareProvisionTasks :
  template.Parse hardwareProvisionTasks = inr hardwareNodes.
Proof. vm_compute. reflexivity. Qed.

Lemma workflow_fields_defined (wt : WorkflowTemplate) :
  Forall (fun f => is_Some (template.fieldByName wt f)) (fieldsOf workflowNodes).
Proof.
  cbv [workflowNodes fieldsOf].
  repeat (constructor; [eexists; reflexivity|]). constructor.
Qed.

Lemma hardware_fields_defined (t : HardwareProvisionTasks) :
  Forall (fun f => is_Some (template.fieldByName t f)) (fieldsOf hardwareNodes).
Proof.
  cbv [hardwareNodes fieldsOf].
  repeat (constructor; [eexists; reflexivity|]). constructor.
Qed.

(** ** [Render] on an object *)

Lemma Render_valid (wt : WorkflowTemplate) :
  Name wt <> "" -> ImageURL wt <> "" ->
  WorkflowTemplate_Render wt
  = (defaulted wt, (renderNodes (defaulted wt) workflowNodes, None)).
Proof.
  intros Hn Hi. unfold WorkflowTemplate_Render.
  apply String.eqb_neq in Hn, Hi. rewrite Hn, Hi.
  fold (defaulted wt). rewrite Parse_workflowTemplate.
  unfold template.Execute.
  now rewrite (walk_defined _ _ (workflow_fields_defined _)).
Qed.

Lemma Render_hardware (t : HardwareProvisionTasks) :
  HardwareProvisionTasks_Render t = (renderNodes t hardwareNodes, None).
Proof.
  unfold HardwareProvisionTasks_Render. rewrite Parse_hardwareProvisionTasks.
  unfold template.Execute.
  now rewrite (walk_defined _ _ (hardware_fields_defined _)).
Qed.

Lemma Render_cases (wt : WorkflowTemplate) :
  (Name wt = "" /\ WorkflowTemplate_Render wt = (wt, ("", Some ErrMissingName)))
  \/ (Name wt <> "" /\ ImageURL wt = ""
      /\ WorkflowTemplate_Render wt = (wt, ("", Some ErrMissingImageURL)))
  \/ (Name wt <> "" /\ ImageURL wt <> ""
      /\ WorkflowTemplate_Render wt
         = (defaulted wt, (renderNodes (defaulted wt) workflowNodes, None))).
Proof.
  destruct (String.eqb_spec (Name wt) "") as [Hn|Hn].
  - left. split; [assumption|]. unfold WorkflowTemplate_Render.
    now rewrite Hn.
  - right. destruct (String.eqb_spec (ImageURL wt) "") as [Hi|Hi].
    + left. repeat split; try assumption. unfold WorkflowTemplate_Render.
      apply String.eqb_neq in Hn. now rewrite Hn, Hi.
    + right. repeat split; try assumption. now apply Render_valid.
Qed.

Lemma defaulted_idem (wt : WorkflowTemplate) : defaulted (defaulted wt) = defaulted wt.
Proof.
  unfold defaulted.
  destruct (String.eqb (DeviceTemplateName wt) "") eqn:H; [reflexivity|].
  now rewrite H.
Qed.

Lemma defaulted_fields (wt : WorkflowTemplate) :
  Name (defaulted wt) = Name wt
  /\ MetadataURL (defaulted wt) = MetadataURL wt
  /\ ImageURL (defaulted wt) = ImageURL wt
  /\ DestDisk (defaulted wt) = DestDisk wt
  /\ DestPartition (defaulted wt) = DestPartition wt.
Proof. unfold defaulted. now destruct (String.eqb _ _). Qed.


(** ** The rendered documents, line by line *)

#[local] Arguments String.append !s1 s2 : simpl nomatch.

Lemma concat_cons (x : string) (xs : list string) :
  String.concat "" (x :: xs) = x +:+ String.concat "" xs.
Proof.
  destruct xs as [|y ys]; cbn [String.concat].
  - now rewrite string_app_nil_r.
  - reflexivity.
Qed.

Lemma rawString_cons (l : string) (ls : list string) :
  rawString (l :: ls) = nl +:+ l +:+ rawString ls.
Proof.
  unfold rawString. cbn [map]. rewrite concat_cons.
  now rewrite !string_app_assoc.
Qed.

Lemma render_workflowLines (wt : WorkflowTemplate) :
  renderNodes wt workflowNodes = rawString (workflowLines wt).
Proof.
  destruct wt as [n m i d p t].
  unfold workflowLines. rewrite !rawString_cons.
  cbn [Name MetadataURL ImageURL DestDisk DestPartition DeviceTemplateName].
  rewrite !string_app_assoc.
  cbv. reflexivity.
Qed.

Lemma splitLines_line (l s : string) :
  yaml.allPrintable l = true ->
  splitLines (l +:+ String "010" s) = l :: splitLines s.
Proof.
  induction l as [|c l IH]; intros Hl; [reflexivity|].
  cbn [yaml.allPrintable] in Hl. apply andb_true_iff in Hl as [Hc Hl].
  change (splitLines (String c (l +:+ String "010" s)) = String c l :: splitLines s).
  cbn [splitLines]. rewrite (IH Hl).
  destruct (Ascii.eqb_spec c "010") as [->|_]; [discriminate|reflexivity].
Qed.

Lemma splitLines_rawString (ls : list string) :
  Forall (fun l => yaml.allPrintable l = true) ls ->
  splitLines (rawString ls) = "" :: ls ++ [""].
Proof.
  induction 1 as [|l ls Hl _ IH]; [reflexivity|].
  rewrite rawString_cons.
  change (rawString ls) with
    (String "010" (String.concat "" (map (fun l => l +:+ nl) ls))) in *.
  change (nl +:+ l +:+ String "010" (String.concat "" (map (fun l => l +:+ nl) ls)))
    with (String "010"
            (l +:+ String "010" (String.concat "" (map (fun l => l +:+ nl) ls)))).
  cbn [splitLines] in *. change (Ascii.eqb "010" "010") with true in *.
  cbv iota in *. rewrite (splitLines_line _ _ Hl).
  injection IH as IH. now rewrite IH.
Qed.

Lemma allPrintable_app (a b : string) :
  yaml.allPrintable (a +:+ b) = yaml.allPrintable a && yaml.allPrintable b.
Proof.
  induction a as [|c a IH]; [reflexivity|].
  change (yaml.allPrintable (String c (a +:+ b))
          = yaml.allPrintable (String c a) && yaml.allPrintable b).
  cbn [yaml.allPrintable]. now rewrite IH, andb_assoc.
Qed.

Lemma quotable_printable (s : string) :
  yaml.quotable s = true -> yaml.allPrintable s = true.
Proof.
  induction s as [|c s IH]; [reflexivity|]. cbn [yaml.quotable yaml.allPrintable].
  unfold yaml.quotableChar. intros H.
  apply andb_true_iff in H as [Hc Hs].
  apply andb_true_iff in Hc as [Hc _]. apply andb_true_iff in Hc as [Hc _].
  rewrite Hc. now apply IH.
Qed.

Lemma isPlain_printable (s : string) :
  yaml.isPlain s = true -> yaml.allPrintable s = true.
Proof.
  destruct s as [|c s]; [discriminate|]. unfold yaml.isPlain. intros H.
  now apply andb_true_iff in H as [_ H].
Qed.

Lemma quotedTail_app (a b : string) :
  yaml.quotable a = true -> yaml.quotedTail (a +:+ b) = yaml.quotedTail b.
Proof.
  induction a as [|c a IH]; [reflexivity|]. cbn [yaml.quotable]. intros H.
  apply andb_true_iff in H as [Hc Ha].
  change (yaml.quotedTail (String c (a +:+ b)) = yaml.quotedTail b).
  cbn [yaml.quotedTail]. rewrite Hc, (IH Ha).
  unfold yaml.quotableChar in Hc.
  apply andb_true_iff in Hc as [Hc _]. apply andb_true_iff in Hc as [_ Hc].
  apply negb_true_iff in Hc. now rewrite Hc.
Qed.

Lemma valueKind_plain (v : string) :
  yaml.isPlain v = true -> yaml.valueKind v = Some yaml.Scalar.
Proof.
  intros H. unfold yaml.valueKind. rewrite H.
  destruct v as [|c v]; [discriminate|]. unfold yaml.isPlain in H.
  repeat (apply andb_true_iff in H as [H ?]).
  apply negb_true_iff in H.
  cbn [yaml.allSpaces]. rewrite H. cbn [andb].
  destruct (Ascii.eqb_spec c "|") as [->|_]; [discriminate|].
  destruct (Ascii.eqb_spec c "034") as [->|_]; [discriminate|].
  reflexivity.
Qed.

(** A line whose value is a plain scalar, a line with a field between
    double quotes, and a line of a literal block: its shape does not depend
    on which such value it holds. *)
Lemma plain_line (pre : string) (k : nat) (F : yaml.Value -> yaml.Item) (v w : string) :
  (forall x, yaml.shape (pre +:+ x)
             = if yaml.allPrintable x
               then Some (yaml.Text k (option_map F (yaml.valueKind x)))
               else None) ->
  yaml.isPlain v = true -> yaml.isPlain w = true ->
  yaml.shape (pre +:+ v) = yaml.shape (pre +:+ w).
Proof.
  intros H Hv Hw. rewrite !H.
  rewrite (isPlain_printable _ Hv), (isPlain_printable _ Hw).
  now rewrite (valueKind_plain _ Hv), (valueKind_plain _ Hw).
Qed.

Lemma quoted_line (pre : string) (k : nat) (F : yaml.Value -> yaml.Item)
    (v w suf : string) :
  (forall x, yaml.shape (pre +:+ x)
             = if yaml.allPrintable x
               then Some (yaml.Text k
                            (option_map F (if yaml.quotedTail x
                                           then Some yaml.Scalar else None)))
               else None) ->
  yaml.quotable v = true -> yaml.quotable w = true ->
  yaml.shape (pre +:+ v +:+ suf) = yaml.shape (pre +:+ w +:+ suf).
Proof.
  intros H Hv Hw. rewrite !H, !allPrintable_app.
  rewrite (quotable_printable _ Hv), (quotable_printable _ Hw).
  now rewrite (quotedTail_app _ _ Hv), (quotedTail_app _ _ Hw).
Qed.

Lemma inert_line (pre : string) (k : nat) (v w suf : string) :
  (forall x, yaml.shape (pre +:+ x)
             = if yaml.allPrintable x then Some (yaml.Text k None) else None) ->
  yaml.allPrintable v = true -> yaml.allPrintable w = true ->
  yaml.shape (pre +:+ v +:+ suf) = yaml.shape (pre +:+ w +:+ suf).
Proof.
  intros H Hv Hw. rewrite !H, !allPrintable_app. now rewrite Hv, Hw.
Qed.

Lemma quoted_line2 (a b : string) (k : nat) (F : yaml.Value -> yaml.Item)
    (v w suf : string) :
  (forall x, yaml.shape (a +:+ b +:+ x)
             = if yaml.allPrintable x
               then Some (yaml.Text k
                            (option_map F (if yaml.quotedTail x
                                           then Some yaml.Scalar else None)))
               else None) ->
  yaml.quotable v = true -> yaml.quotable w = true ->
  yaml.shape (a +:+ b +:+ v +:+ suf) = yaml.shape (a +:+ b +:+ w +:+ suf).
Proof.
  intros H Hv Hw. rewrite <- !(string_app_assoc a b).
  apply (quoted_line _ k F); try assumption.
  intros x. rewrite string_app_assoc. apply H.
Qed.

Lemma quoted_line3 (a b c : string) (k : nat) (F : yaml.Value -> yaml.Item)
    (v w suf : string) :
  (forall x, yaml.shape (a +:+ b +:+ c +:+ x)
             = if yaml.allPrintable x
               then Some (yaml.Text k
                            (option_map F (if yaml.quotedTail x
                                           then Some yaml.Scalar else None)))
               else None) ->
  yaml.quotable v = true -> yaml.quotable w = true ->
  yaml.shape (a +:+ b +:+ c +:+ v +:+ suf) = yaml.shape (a +:+ b +:+ c +:+ w +:+ suf).
Proof.
  intros H Hv Hw. rewrite <- !(string_app_assoc b c).
  apply (quoted_line2 _ _ k F); try assumption.
  intros x. rewrite string_app_assoc. apply H.
Qed.

Lemma inert_line2 (a b : string) (k : nat) (v w suf : string) :
  (forall x, yaml.shape (a +:+ b +:+ x)
             = if yaml.allPrintable x then Some (yaml.Text k None) else None) ->
  yaml.allPrintable v = true -> yaml.allPrintable w = true ->
  yaml.shape (a +:+ b +:+ v +:+ suf) = yaml.shape (a +:+ b +:+ w +:+ suf).
Proof.
  intros H Hv Hw. rewrite <- !(string_app_assoc a b).
  apply (inert_line _ k); try assumption.
  intros x. rewrite string_app_assoc. apply H.
Qed.

Ltac line_shape :=
  lazymatch goal with
  | |- ?a = ?a => reflexivity
  | |- _ =>
      first
        [ solve [eapply plain_line;
                 [intros ?; reflexivity | eassumption | reflexivity]]
        | solve [eapply quoted_line2;
                 [intros ?; reflexivity | eassumption | reflexivity]]
        | solve [eapply quoted_line3;
                 [intros ?; reflexivity | eassumption | reflexivity]]
        | solve [eapply inert_line2;
                 [intros ?; reflexivity | eassumption | reflexivity]] ]
  end.

Ltac lines_shape :=
  lazymatch goal with
  | |- [] = [] => reflexivity
  | |- _ :: _ = _ :: _ => apply (f_equal2 cons); [line_shape | lines_shape]
  end.

(** The shape of each line of the workflow document is that of the same
    line of [wt_shape]. *)
Lemma workflowLines_shapes (n m i d p t : string) (bd bp : bool) :
  yaml.isPlain n = true -> yaml.quotable n = true ->
  yaml.isPlain i = true ->
  (if bd then yaml.isPlain d = true else d = "") ->
  (if bp then yaml.isPlain p = true else p = "") ->
  yaml.quotable p = true -> yaml.quotable t = true ->
  yaml.allPrintable m = true ->
  map yaml.shape
    (workflowLines {| Name := n; MetadataURL := m; ImageURL := i; DestDisk := d;
                      DestPartition := p; DeviceTemplateName := t |})
  = map yaml.shape (workflowLines (wt_shape bd bp)).
Proof.
  intros Hn Hnq Hi Hd Hp Hpq Htq Hm.
  unfold workflowLines, wt_shape.
  cbn [map Name MetadataURL ImageURL DestDisk DestPartition DeviceTemplateName].
  destruct bd, bp; try subst d; try subst p; lines_shape.
Qed.

Lemma workflowLines_printable (n m i d p t : string) :
  yaml.allPrintable n = true -> yaml.allPrintable m = true ->
  yaml.allPrintable i = true -> yaml.allPrintable d = true ->
  yaml.allPrintable p = true -> yaml.allPrintable t = true ->
  Forall (fun l => yaml.allPrintable l = true)
    (workflowLines {| Name := n; MetadataURL := m; ImageURL := i; DestDisk := d;
                      DestPartition := p; DeviceTemplateName := t |}).
Proof.
  intros Hn Hm Hi Hd Hp Ht. unfold workflowLines.
  cbn [Name MetadataURL ImageURL DestDisk DestPartition DeviceTemplateName].
  repeat (constructor;
          [rewrite ?allPrintable_app, ?Hn, ?Hm, ?Hi, ?Hd, ?Hp, ?Ht; reflexivity|]).
  constructor.
Qed.

Lemma fitsYaml_valid (wt : WorkflowTemplate) :
  fitsYaml wt = true -> Name wt <> "" /\ ImageURL wt <> "".
Proof.
  unfold fitsYaml. intros H.
  repeat (apply andb_true_iff in H as [H ?]).
  split; intros E; rewrite E in *; discriminate.
Qed.

Lemma workflow_wellFormed (wt : WorkflowTemplate) :
  fitsYaml wt = true -> yaml.wellFormed (rawString (workflowLines wt)) = true.
Proof.
  destruct wt as [n m i d p t]. unfold fitsYaml.
  cbn [Name MetadataURL ImageURL DestDisk DestPartition DeviceTemplateName].
  intros H.
  apply andb_true_iff in H as [H Hm]. apply andb_true_iff in H as [H Htq].
  apply andb_true_iff in H as [H Hpq]. apply andb_true_iff in H as [H Hp].
  apply andb_true_iff in H as [H Hd]. apply andb_true_iff in H as [H Hi].
  apply andb_true_iff in H as [Hn Hnq].
  assert (exists bd : bool, if bd then yaml.isPlain d = true else d = "")
    as [bd Hbd].
  { apply orb_true_iff in Hd as [Hd|Hd].
    - exists false. now apply String.eqb_eq.
    - now exists true. }
  assert (exists bp : bool, if bp then yaml.isPlain p = true else p = "")
    as [bp Hbp].
  { apply orb_true_iff in Hp as [Hp|Hp].
    - exists false. now apply String.eqb_eq.
    - now exists true. }
  assert (yaml.allPrintable d = true) as Hdp.
  { destruct bd; [now apply isPlain_printable | now subst d]. }
  unfold yaml.wellFormed. rewrite splitLines_rawString.
  - cbn [map]. rewrite map_app.
    rewrite (workflowLines_shapes n m i d p t bd bp) by assumption.
    destruct bd, bp; vm_compute; reflexivity.
  - apply workflowLines_printable; try assumption;
      auto using isPlain_printable, quotable_printable.
Qed.

Lemma defaulted_fitsYaml (wt : WorkflowTemplate) :
  fitsYaml wt = true -> fitsYaml (defaulted wt) = true.
Proof.
  unfold defaulted.
  destruct (String.eqb_spec (DeviceTemplateName wt) "") as [E|_]; [|trivial].
  destruct wt as [n m i d p t]. cbn in E. subst t. unfold fitsYaml.
  cbn [set_DeviceTemplateName Name MetadataURL ImageURL DestDisk DestPartition
       DeviceTemplateName].
  intros H. repeat (apply andb_true_iff in H as [H ?]).
  repeat (apply andb_true_iff; split); try assumption; reflexivity.
Qed.

(** A text the recogniser accepts keeps to the character set of YAML. *)
Lemma printable_not_forbidden (c : ascii) :
  yaml.printable c = true -> yaml.forbiddenByte c = false.
Proof.
  destruct c as [[] [] [] [] [] [] [] []]; vm_compute; congruence.
Qed.

Lemma allPrintable_charsAllowed (s : string) :
  yaml.allPrintable s = true -> yaml.charsAllowed s = true.
Proof.
  induction s as [|c s IH]; [reflexivity|].
  cbn [yaml.allPrintable yaml.charsAllowed]. intros H.
  apply andb_true_iff in H as [Hc Hs].
  now rewrite (printable_not_forbidden c Hc), (IH Hs).
Qed.

Lemma charsAllowed_lines (doc : string) :
  Forall (fun l => yaml.charsAllowed l = true) (splitLines doc) ->
  yaml.charsAllowed doc = true.
Proof.
  induction doc as [|c s IH]; [reflexivity|].
  cbn [splitLines yaml.charsAllowed].
  destruct (Ascii.eqb_spec c "010") as [->|_].
  - intros H. inversion H; subst. now apply IH.
  - destruct (splitLines s) as [|l ls]; intros H; inversion H as [|? ? Hl Hls]; subst;
      cbn [yaml.charsAllowed] in Hl; apply andb_true_iff in Hl as [Hc Hl];
      rewrite Hc; apply IH; [constructor | now constructor].
Qed.

Lemma check_shapes (shs : list (option yaml.Shape)) (st : yaml.State) :
  yaml.check st shs = true -> Forall (fun sh => sh <> None) shs.
Proof.
  revert st. induction shs as [|[sh|] shs IH]; intros st H.
  - constructor.
  - cbn [yaml.check] in H. destruct (yaml.step st sh) as [st'|]; [|discriminate].
    constructor; [discriminate | now apply (IH st')].
  - discriminate.
Qed.

Lemma wellFormed_charsAllowed (doc : string) :
  yaml.wellFormed doc = true -> yaml.charsAllowed doc = true.
Proof.
  unfold yaml.wellFormed. intros H. apply check_shapes in H.
  apply charsAllowed_lines. induction (splitLines doc) as [|l ls IH]; [constructor|].
  cbn [map] in H. inversion H as [|? ? Hl Hls]; subst.
  constructor; [|now apply IH].
  apply allPrintable_charsAllowed. unfold yaml.shape in Hl.
  destruct (yaml.allPrintable l); [reflexivity | now contradiction Hl].
Qed.


(** ** The claims about the workflow renderer *)

(** C1. For an object with non-empty [Name] and [ImageURL] and an empty
    [DeviceTemplateName], a call of [Render] through its address succeeds and
    leaves the object with [DeviceTemplateName] equal to the literal
    [{{.device_1}}], its other fields untouched; the output is the template
    substituted on the object as mutated, so the literal stands verbatim in
    the [worker] field, right after the head of the document. *)
Theorem C1_default_fill_placeholder
    (h : gmap addr WorkflowTemplate) (p : addr) (wt : WorkflowTemplate) :
  h !! p = Some wt ->
  Name wt <> "" -> ImageURL wt <> "" -> DeviceTemplateName wt = "" ->
  exists h' wt' out,
    call_WorkflowTemplate_Render p h = Some (h', (out, None))
    /\ h' !! p = Some wt'
    /\ DeviceTemplateName wt' = "{{.device_1}}"
    /\ wt' = set_DeviceTemplateName "{{.device_1}}" wt
    /\ out = renderNodes wt' workflowNodes
    /\ exists rest,
         out = workflowHead (Name wt)
               +:+ "    worker: " +:+ q +:+ "{{.device_1}}" +:+ q +:+ nl +:+ rest.
Proof.
  intros Hp Hn Hi Hd. unfold call_WorkflowTemplate_Render. rewrite Hp.
  rewrite Render_valid by assumption.
  assert (defaulted wt = set_DeviceTemplateName "{{.device_1}}" wt) as ->.
  { unfold defaulted. now rewrite Hd. }
  eexists _, _, _. split; [reflexivity|].
  split; [apply lookup_insert_eq|].
  do 3 (split; [reflexivity|]).
  destruct wt as [n m i d pt t]. unfold workflowHead.
  cbn [Name set_DeviceTemplateName].
  eexists. rewrite !string_app_assoc. cbv. reflexivity.
Qed.


Lemma C1_default_fill_placeholder_witness :
  exists h' wt' out,
    call_WorkflowTemplate_Render 1%positive {[ 1%positive := wt_blank_device ]}
    = Some (h', (out, None))
    /\ h' !! 1%positive = Some wt'
    /\ DeviceTemplateName wt' = "{{.device_1}}"
    /\ wt' = set_DeviceTemplateName "{{.device_1}}" wt_blank_device
    /\ out = renderNodes wt' workflowNodes
    /\ exists rest,
         out = workflowHead (Name wt_blank_device)
               +:+ "    worker: " +:+ q +:+ "{{.device_1}}" +:+ q +:+ nl +:+ rest.
Proof.
  apply (C1_default_fill_placeholder {[ 1%positive := wt_blank_device ]}
           1%positive wt_blank_device).
  - reflexivity.
  - discriminate.
  - discriminate.
  - reflexivity.
Defined.

(** C2. With an empty [Name], [Render] returns the error [ErrMissingName]
    and the empty string, whatever the other fields hold (an empty
    [ImageURL] included: the name is checked first), and the object is as
    it was. *)
Theorem C2_missing_name (wt : WorkflowTemplate) :
  Name wt = "" ->
  WorkflowTemplate_Render wt = (wt, ("", Some ErrMissingName)).
Proof.
  intros Hn. unfold WorkflowTemplate_Render. now rewrite Hn.
Qed.


Lemma C2_missing_name_witness :
  Name wt_nameless = ""
  /\ WorkflowTemplate_Render wt_nameless = (wt_nameless, ("", Some ErrMissingName)).
Proof.
  split; [reflexivity|]. apply (C2_missing_name wt_nameless). reflexivity.
Defined.

(** C3. With a non-empty [Name] and an empty [ImageURL], [Render] returns
    the error [ErrMissingImageURL] and the empty string, and the object is
    as it was. *)
Theorem C3_missing_image_url (wt : WorkflowTemplate) :
  Name wt <> "" -> ImageURL wt = "" ->
  WorkflowTemplate_Render wt = (wt, ("", Some ErrMissingImageURL)).
Proof.
  intros Hn Hi. unfold WorkflowTemplate_Render.
  apply String.eqb_neq in Hn. now rewrite Hn, Hi.
Qed.


Lemma C3_missing_image_url_witness :
  WorkflowTemplate_Render wt_imageless
  = (wt_imageless, ("", Some ErrMissingImageURL)).
Proof.
  apply (C3_missing_image_url wt_imageless); [discriminate | reflexivity].
Defined.

(** C4. Whatever [Render] returns, the five fields other than
    [DeviceTemplateName] are as before; the object changes only when both
    validations have passed (and then the call succeeds); and when the call
    returns [ErrMissingName] or [ErrMissingImageURL] the object is exactly as
    it was and the output is empty. *)
Theorem C4_validation_error_leaves_object
    (wt wt' : WorkflowTemplate) (out : string) (err : option error) :
  WorkflowTemplate_Render wt = (wt', (out, err)) ->
  (Name wt' = Name wt
   /\ MetadataURL wt' = MetadataURL wt
   /\ ImageURL wt' = ImageURL wt
   /\ DestDisk wt' = DestDisk wt
   /\ DestPartition wt' = DestPartition wt)
  /\ (wt' <> wt ->
      Name wt <> "" /\ ImageURL wt <> "" /\ DeviceTemplateName wt = ""
      /\ err = None)
  /\ (err = Some ErrMissingName \/ err = Some ErrMissingImageURL ->
      wt' = wt /\ out = "").
Proof.
  intros HR.
  destruct (Render_cases wt) as [[Hn E]|[(Hn & Hi & E)|(Hn & Hi & E)]];
    rewrite E in HR; inversion HR; subst; clear HR.
  - repeat split; try reflexivity; try congruence.
  - repeat split; try reflexivity; try congruence.
  - split; [apply defaulted_fields|]. split.
    + intros Hne. repeat split; try assumption.
      destruct (String.eqb_spec (DeviceTemplateName wt) "") as [Hd|Hd]; [assumption|].
      exfalso. apply Hne. unfold defaulted.
      apply String.eqb_neq in Hd. now rewrite Hd.
    + intros [H|H]; discriminate.
Qed.

Lemma C4_validation_error_leaves_object_witness :
  (Name wt_imageless = Name wt_imageless
   /\ MetadataURL wt_imageless = MetadataURL wt_imageless
   /\ ImageURL wt_imageless = ImageURL wt_imageless
   /\ DestDisk wt_imageless = DestDisk wt_imageless
   /\ DestPartition wt_imageless = DestPartition wt_imageless)
  /\ (wt_imageless <> wt_imageless ->
      Name wt_imageless <> "" /\ ImageURL wt_imageless <> ""
      /\ DeviceTemplateName wt_imageless = ""
      /\ Some ErrMissingImageURL = None)
  /\ (Some ErrMissingImageURL = Some ErrMissingName
      \/ Some ErrMissingImageURL = Some ErrMissingImageURL ->
      wt_imageless = wt_imageless /\ EmptyString = "").
Proof.
  apply (C4_validation_error_leaves_object
           wt_imageless wt_imageless "" (Some ErrMissingImageURL)).
  reflexivity.
Defined.

(** C5. On the example object of the specification [Render] succeeds,
    leaves the object as it was, and its output contains each of the listed
    fragments and the global timeout of 6000; its actions are exactly the
    eight named ones, in that order. *)
Theorem C5_example_output :
  exists out,
    WorkflowTemplate_Render wt_m1 = (wt_m1, (out, None))
    /\ Contains "name: m1" out
    /\ Contains ("worker: " +:+ q +:+ "worker-1" +:+ q) out
    /\ Contains "IMG_URL: http://x/img" out
    /\ Contains "DEST_DISK: /dev/sda" out
    /\ Contains "BLOCK_DEVICE: /dev/sda1" out
    /\ Contains ("metadata_urls: [" +:+ q +:+ "http://meta" +:+ q +:+ "]") out
    /\ Contains "global_timeout: 6000" out
    /\ actionNames out
       = map (fun a => q +:+ a +:+ q)
           [ "stream-image"; "create-user"; "create-init-script";
             "create-init-script-service"; "enable-init-script";
             "add-tink-cloud-init-config"; "add-tink-cloud-init-ds-config";
             "kexec-image" ].
Proof.
  eexists. split; [vm_compute; reflexivity|].
  repeat (split; [apply containsb_sound; vm_compute; reflexivity|]).
  vm_compute. reflexivity.
Qed.

(** C6. For either value of [EFIBoot], [Render] returns no error; the output
    is the same text around the printed flag, contains [efiBoot: true] or
    [efiBoot: false] accordingly, and its steps are exactly power off, the
    one-time boot-device action (device [pxe]), power on, in that order. *)
Theorem C6_hardware_tasks (t : HardwareProvisionTasks) :
  exists out,
    HardwareProvisionTasks_Render t = (out, None)
    /\ out = rawString
               [ "- powerAction: " +:+ q +:+ "off" +:+ q;
                 "- oneTimeBootDeviceAction:";
                 "    device:";
                 "    - pxe";
                 "    efiBoot: " +:+ (if EFIBoot t then "true" else "false");
                 "- powerAction: " +:+ q +:+ "on" +:+ q ]
    /\ Contains ("efiBoot: " +:+ (if EFIBoot t then "true" else "false")) out
    /\ steps out
       = [ "powerAction: " +:+ q +:+ "off" +:+ q;
           "oneTimeBootDeviceAction:";
           "powerAction: " +:+ q +:+ "on" +:+ q ].
Proof.
  eexists. split; [apply Render_hardware|].
  destruct t as [[|]]; (split; [vm_compute; reflexivity|]);
    (split; [apply containsb_sound; vm_compute; reflexivity|]);
    vm_compute; reflexivity.
Qed.

(** C7. For an object that passes validation and whose
    [DeviceTemplateName] is already set, two calls of [Render] through the
    same address return the same output and no error, and neither call
    changes the store. *)
Theorem C7_render_twice
    (h : gmap addr WorkflowTemplate) (p : addr) (wt : WorkflowTemplate) :
  h !! p = Some wt ->
  Name wt <> "" -> ImageURL wt <> "" -> DeviceTemplateName wt <> "" ->
  exists h1 out,
    call_WorkflowTemplate_Render p h = Some (h1, (out, None))
    /\ call_WorkflowTemplate_Render p h1 = Some (h1, (out, None))
    /\ h1 = h.
Proof.
  intros Hp Hn Hi Hd.
  assert (defaulted wt = wt) as Hdef.
  { unfold defaulted. apply String.eqb_neq in Hd. now rewrite Hd. }
  assert (call_WorkflowTemplate_Render p h
          = Some (h, (renderNodes wt workflowNodes, None))) as Hcall.
  { unfold call_WorkflowTemplate_Render. rewrite Hp.
    rewrite Render_valid by assumption. rewrite Hdef.
    now rewrite (insert_id h p wt Hp). }
  exists h, (renderNodes wt workflowNodes). now rewrite Hcall.
Qed.

Lemma C7_render_twice_witness :
  exists h1 out,
    call_WorkflowTemplate_Render 1%positive {[ 1%positive := wt_m1 ]}
    = Some (h1, (out, None))
    /\ call_WorkflowTemplate_Render 1%positive h1 = Some (h1, (out, None))
    /\ h1 = {[ 1%positive := wt_m1 ]}.
Proof.
  apply (C7_render_twice {[ 1%positive := wt_m1 ]} 1%positive wt_m1).
  - reflexivity.
  - discriminate.
  - discriminate.
  - discriminate.
Defined.
(** C8 (as amended). The hardware job renders to well-formed YAML for
    either flag.  The workflow renders to well-formed YAML whenever
    [fitsYaml] holds of the object: every field value is printable ASCII;
    [Name] and [ImageURL] are not empty, start with neither a space nor an
    indicator character, hold no colon before a space or at the end and no
    space before [#]; [DestDisk] and [DestPartition] are empty or such
    values; [Name], [DestPartition] and [DeviceTemplateName] hold no double
    quote and no backslash.  Such an object passes validation and [Render]
    returns no error on it. *)
Theorem C8_rendered_yaml_well_formed :
  (forall t : HardwareProvisionTasks,
      exists out,
        HardwareProvisionTasks_Render t = (out, None)
        /\ yaml.wellFormed out = true)
  /\ (forall wt : WorkflowTemplate,
         fitsYaml wt = true ->
         exists wt' out,
           WorkflowTemplate_Render wt = (wt', (out, None))
           /\ yaml.wellFormed out = true).
Proof.
  split.
  - intros [[|]]; eexists; (split; [vm_compute; reflexivity|]);
      vm_compute; reflexivity.
  - intros wt Hfit. destruct (fitsYaml_valid wt Hfit) as [Hn Hi].
    exists (defaulted wt), (renderNodes (defaulted wt) workflowNodes).
    split; [now apply Render_valid|].
    rewrite render_workflowLines.
    now apply workflow_wellFormed, defaulted_fitsYaml.
Qed.

Lemma C8_rendered_yaml_well_formed_witness :
  exists wt' out,
    WorkflowTemplate_Render wt_m1 = (wt', (out, None))
    /\ yaml.wellFormed out = true.
Proof.
  apply (proj2 C8_rendered_yaml_well_formed wt_m1). reflexivity.
Defined.

(** C8 (as stated) fails.  [wt_control] passes validation and renders
    without error, to a text that holds the control character 1 between the
    quotes of the [worker] line: outside the character set of YAML, so no
    YAML document.  [wt_colon] passes validation and renders without error,
    to a text with the line [DEST_DISK: a: b], a mapping entry in the value
    of another on one line, which the recogniser rejects. *)
Lemma C8_counterexample_invalid_yaml :
  (Name wt_control <> "" /\ ImageURL wt_control <> ""
   /\ exists out,
        WorkflowTemplate_Render wt_control = (wt_control, (out, None))
        /\ In ("    worker: " +:+ q +:+ String "001"%char EmptyString +:+ q)
              (splitLines out)
        /\ yaml.charsAllowed out = false
        /\ yaml.wellFormed out = false)
  /\ (Name wt_colon <> "" /\ ImageURL wt_colon <> ""
      /\ exists out,
           WorkflowTemplate_Render wt_colon = (wt_colon, (out, None))
           /\ In "          DEST_DISK: a: b" (splitLines out)
           /\ yaml.wellFormed out = false).
Proof.
  split.
  - split; [discriminate|]. split; [discriminate|].
    eexists. split; [vm_compute; reflexivity|].
    split; [|split; vm_compute; reflexivity].
    vm_compute. do 6 right. left. reflexivity.
  - split; [discriminate|]. split; [discriminate|].
    eexists. split; [vm_compute; reflexivity|].
    split; [|vm_compute; reflexivity].
    vm_compute. do 17 right. left. reflexivity.
Qed.

(** C10. With non-empty [Name] and [ImageURL], [Render] returns no error:
    the constant template parses and every field it names is a field of the
    object.  So whenever [Render] returns an error, it is [ErrMissingName]
    or [ErrMissingImageURL]. *)
Theorem C10_only_sentinel_errors :
  (forall wt : WorkflowTemplate,
      Name wt <> "" -> ImageURL wt <> "" ->
      snd (snd (WorkflowTemplate_Render wt)) = None)
  /\ (forall (wt : WorkflowTemplate) (e : error),
         snd (snd (WorkflowTemplate_Render wt)) = Some e ->
         e = ErrMissingName \/ e = ErrMissingImageURL).
Proof.
  split.
  - intros wt Hn Hi. now rewrite Render_valid.
  - intros wt e He.
    destruct (Render_cases wt) as [[Hn E]|[(Hn & Hi & E)|(Hn & Hi & E)]];
      rewrite E in He; cbn in He.
    + left. congruence.
    + right. congruence.
    + discriminate.
Qed.

Lemma C10_only_sentinel_errors_witness :
  snd (snd (WorkflowTemplate_Render wt_m1)) = None
  /\ (ErrMissingImageURL = ErrMissingName
      \/ ErrMissingImageURL = ErrMissingImageURL).
Proof.
  split.
  - apply (proj1 C10_only_sentinel_errors wt_m1); discriminate.
  - apply (proj2 C10_only_sentinel_errors wt_imageless ErrMissingImageURL).
    reflexivity.
Defined.

(** ** The rendered workflow in full *)

(** X1. On an object that passes validation, [Render] returns, byte for
    byte, the lines of the template with every field reference replaced by
    the field's value after the default-fill, and no error. *)
Theorem X1_render_substitutes_fields (wt : WorkflowTemplate) :
  Name wt <> "" -> ImageURL wt <> "" ->
  WorkflowTemplate_Render wt
  = (defaulted wt, (rawString (workflowLines (defaulted wt)), None)).
Proof.
  intros Hn Hi. rewrite Render_valid by assumption.
  now rewrite render_workflowLines.
Qed.

Lemma X1_render_substitutes_fields_witness :
  WorkflowTemplate_Render wt_blank_device
  = (defaulted wt_blank_device,
     (rawString (workflowLines (defaulted wt_blank_device)), None)).
Proof.
  apply (X1_render_substitutes_fields wt_blank_device); discriminate.
Defined.

(** ** Further properties of the workflow renderer *)

(** X2. A second [Render] on the object the first one left behind returns
    what the first returned and leaves the object as it is, whatever the
    object was: valid or not, device template name set or not. *)
Theorem X2_render_again (wt : WorkflowTemplate) :
  WorkflowTemplate_Render (fst (WorkflowTemplate_Render wt))
  = WorkflowTemplate_Render wt.
Proof.
  destruct (Render_cases wt) as [[Hn E]|[(Hn & Hi & E)|(Hn & Hi & E)]];
    rewrite E; cbn [fst]; try exact E.
  destruct (defaulted_fields wt) as (En & _ & Ei & _).
  rewrite Render_valid by (rewrite ?En, ?Ei; assumption).
  now rewrite defaulted_idem.
Qed.

Lemma Contains_line (l : string) (ls : list string) :
  In l ls -> Contains (nl +:+ l +:+ nl) (rawString ls).
Proof.
  induction ls as [|a ls IH]; intros Hin; [destruct Hin|].
  rewrite rawString_cons. destruct Hin as [->|Hin].
  - exists "", (String.concat "" (map (fun x => x +:+ nl) ls)).
    unfold rawString. now rewrite !string_app_assoc.
  - destruct (IH Hin) as (pre & post & ->).
    exists (nl +:+ a +:+ pre), post. now rewrite !string_app_assoc.
Qed.

Ltac find_line :=
  cbn [In]; repeat (first [left; reflexivity | right]).

(** X3. On every object that passes validation the output holds, as whole
    lines, the document name, the task name, the worker, the image URL,
    the destination disk, the block device, the metadata URL and the kernel
    command line, each with the value of its field (the device template
    name after the default-fill). *)
Theorem X3_fields_in_output (wt : WorkflowTemplate) :
  Name wt <> "" -> ImageURL wt <> "" ->
  exists wt' out,
    WorkflowTemplate_Render wt = (wt', (out, None))
    /\ Contains (nl +:+ ("name: " +:+ Name wt) +:+ nl) out
    /\ Contains (nl +:+ ("  - name: " +:+ q +:+ Name wt +:+ q) +:+ nl) out
    /\ Contains (nl +:+ ("    worker: " +:+ q +:+ DeviceTemplateName wt' +:+ q) +:+ nl) out
    /\ Contains (nl +:+ ("          IMG_URL: " +:+ ImageURL wt) +:+ nl) out
    /\ Contains (nl +:+ ("          DEST_DISK: " +:+ DestDisk wt) +:+ nl) out
    /\ Contains (nl +:+ ("          BLOCK_DEVICE: " +:+ DestPartition wt) +:+ nl) out
    /\ Contains (nl +:+ ("                metadata_urls: [" +:+ q +:+ MetadataURL wt
                         +:+ q +:+ "]") +:+ nl) out
    /\ Contains (nl +:+ ("          CMD_LINE: " +:+ q +:+ "root=" +:+ DestPartition wt
                         +:+ " rw" +:+ q) +:+ nl) out.
Proof.
  intros Hn Hi.
  exists (defaulted wt), (rawString (workflowLines (defaulted wt))).
  split.
  { rewrite Render_valid by assumption. now rewrite render_workflowLines. }
  destruct (defaulted_fields wt) as (En & Em & Ei & Ed & Ep).
  rewrite <- En, <- Em, <- Ei, <- Ed, <- Ep.
  generalize (defaulted wt). intros w.
  repeat split; apply Contains_line; unfold workflowLines; find_line.
Qed.

Lemma X3_fields_in_output_witness :
  exists wt' out,
    WorkflowTemplate_Render wt_blank_device = (wt', (out, None))
    /\ Contains (nl +:+ ("name: " +:+ Name wt_blank_device) +:+ nl) out
    /\ Contains (nl +:+ ("  - name: " +:+ q +:+ Name wt_blank_device +:+ q) +:+ nl) out
    /\ Contains (nl +:+ ("    worker: " +:+ q +:+ DeviceTemplateName wt' +:+ q) +:+ nl) out
    /\ Contains (nl +:+ ("          IMG_URL: " +:+ ImageURL wt_blank_device) +:+ nl) out
    /\ Contains (nl +:+ ("          DEST_DISK: " +:+ DestDisk wt_blank_device) +:+ nl) out
    /\ Contains (nl +:+ ("          BLOCK_DEVICE: " +:+ DestPartition wt_blank_device)
                 +:+ nl) out
    /\ Contains (nl +:+ ("                metadata_urls: [" +:+ q
                         +:+ MetadataURL wt_blank_device +:+ q +:+ "]") +:+ nl) out
    /\ Contains (nl +:+ ("          CMD_LINE: " +:+ q +:+ "root="
                         +:+ DestPartition wt_blank_device +:+ " rw" +:+ q) +:+ nl) out.
Proof.
  apply (X3_fields_in_output wt_blank_device); discriminate.
Defined.








(** X5. The error of [Render] says exactly which required field is empty:
    [ErrMissingName] if and only if [Name] is empty, [ErrMissingImageURL]
    if and only if [Name] is not and [ImageURL] is, no error if and only if
    neither is; and the output is empty exactly when there is an error. *)
Theorem X5_error_by_empty_field (wt : WorkflowTemplate) :
  let r := snd (WorkflowTemplate_Render wt) in
  (snd r = Some ErrMissingName <-> Name wt = "")
  /\ (snd r = Some ErrMissingImageURL <-> Name wt <> "" /\ ImageURL wt = "")
  /\ (snd r = None <-> Name wt <> "" /\ ImageURL wt <> "")
  /\ (fst r = "" <-> snd r <> None).
Proof.
  cbv zeta.
  destruct (Render_cases wt) as [[Hn E]|[(Hn & Hi & E)|(Hn & Hi & E)]];
    rewrite E; cbn [fst snd].
  - repeat split; try tauto; try congruence; try discriminate.
    all: intros H; try discriminate; tauto.
  - repeat split; try tauto; try congruence; try discriminate.
    all: intros H; try discriminate; tauto.
  - rewrite render_workflowLines.
    assert (rawString (workflowLines (defaulted wt)) <> "") by discriminate.
    repeat split; try tauto; try congruence; try discriminate.
    all: intros H'; try discriminate; tauto.
Qed.

(** X6. An empty [DeviceTemplateName] renders as the placeholder written
    out: the results are those of the same object with the field set to
    [{{.device_1}}], and when validation passes the objects after the two
    calls are the same as well. *)
Theorem X6_blank_device_is_placeholder (wt : WorkflowTemplate) :
  DeviceTemplateName wt = "" ->
  let wt_ph := set_DeviceTemplateName "{{.device_1}}" wt in
  snd (WorkflowTemplate_Render wt) = snd (WorkflowTemplate_Render wt_ph)
  /\ (Name wt <> "" -> ImageURL wt <> "" ->
      WorkflowTemplate_Render wt = WorkflowTemplate_Render wt_ph).
Proof.
  intros Hd. cbv zeta.
  set (wt_ph := set_DeviceTemplateName "{{.device_1}}" wt).
  assert (defaulted wt = wt_ph) as Hdef.
  { unfold defaulted. now rewrite Hd. }
  assert (forall Hn : Name wt <> "", ImageURL wt <> "" ->
          WorkflowTemplate_Render wt = WorkflowTemplate_Render wt_ph) as Hvalid.
  { intros Hn Hi. rewrite (Render_valid wt Hn Hi).
    rewrite (Render_valid wt_ph) by assumption.
    now rewrite Hdef. }
  split; [|exact Hvalid].
  destruct (Render_cases wt) as [[Hn E]|[(Hn & Hi & E)|(Hn & Hi & E)]];
    [| |now rewrite (Hvalid Hn Hi)].
  - destruct (Render_cases wt_ph) as [[_ E']|[(Hn' & _)|(Hn' & _)]];
      [now rewrite E, E' | |]; exfalso; apply Hn'; exact Hn.
  - destruct (Render_cases wt_ph) as [[Hn' _]|[(_ & _ & E')|(_ & Hi' & _)]];
      [exfalso; apply Hn; exact Hn' | now rewrite E, E' |].
    exfalso. apply Hi'. exact Hi.
Qed.

Lemma X6_blank_device_is_placeholder_witness :
  snd (WorkflowTemplate_Render wt_blank_device)
  = snd (WorkflowTemplate_Render (set_DeviceTemplateName "{{.device_1}}" wt_blank_device))
  /\ (Name wt_blank_device <> "" -> ImageURL wt_blank_device <> "" ->
      WorkflowTemplate_Render wt_blank_device
      = WorkflowTemplate_Render (set_DeviceTemplateName "{{.device_1}}" wt_blank_device)).
Proof.
  apply (X6_blank_device_is_placeholder wt_blank_device). reflexivity.
Defined.
